(** * Anti-captcha client binding: task payloads and response normalisation

    A shallow embedding of [captcha.py]: the [Task] payload builder, the
    [ImageToTextTask] constructor and the five operations of
    [AntiCaptchaService], followed by the properties of the request/response
    contract.

    Python dictionaries whose keys are strings (task payloads, request bodies,
    parsed JSON objects) are finite maps [gmap string value]; the properties
    below never depend on the iteration order of a dictionary.  Exceptions are
    the [Raise] branch of [result]; the two [requests] calls, and [repr] on
    floats and containers, are the members of the [Runtime] class. *)

From Stdlib Require Import ZArith String Ascii List.
From Stdlib.Strings Require Import Byte.
From Stdlib Require Import Floats.SpecFloat Numbers.DecimalString.
From stdpp Require Import gmap strings list fin_maps.

Set Warnings "-register-all".
Local Open Scope string_scope.
Local Open Scope Z_scope.

(** ** Python values *)

(** What [json()] can produce and [json=] can send.  A float is an IEEE 754
    binary value ([spec_float]); Python's [json] also reads [NaN] and
    [Infinity]. *)
Inductive value : Type :=
  | VNone
  | VBool (b : bool)
  | VInt (n : Z)
  | VFloat (f : spec_float)
  | VStr (s : string)
  | VList (l : list value)
  | VDict (d : gmap string value).

(** [CaptchaException] is the class of the source; the others are the built-in
    exceptions the operators of the source raise, and [RequestException]
    stands for whatever the transport raises. *)
Inductive exn : Type :=
  | CaptchaException (msg : string)
  | KeyError (key : string)
  | TypeError
  | RequestException (info : string).

Inductive result (A : Type) : Type :=
  | Ok (a : A)
  | Raise (e : exn).
Arguments Ok {A} a.
Arguments Raise {A} e.

#[export] Instance result_ret : MRet result := fun _ a => Ok a.
#[export] Instance result_bind : MBind result := fun _ _ f r =>
  match r with
  | Ok a => f a
  | Raise e => Raise e
  end.

Definition is_None_value (v : value) : bool :=
  match v with
  | VNone => true
  | _ => false
  end.

(** [v == s] for a string literal [s]: values of another type are unequal. *)
Definition py_eq_str (v : value) (s : string) : bool :=
  match v with
  | VStr s' => String.eqb s' s
  | _ => false
  end.

Definition float_zero : spec_float := S754_zero false.

(** [v > 0]: [bool] is a subclass of [int]; the remaining types do not
    order against [int]. *)
Definition py_gt0 (v : value) : result bool :=
  match v with
  | VBool b => Ok b
  | VInt n => Ok (0 <? n)
  | VFloat f => Ok (SFltb float_zero f)
  | _ => Raise TypeError
  end.

(** [k in v] *)
Definition py_contains (k : string) (v : value) : result bool :=
  match v with
  | VDict d => Ok (bool_decide (is_Some (d !! k)))
  | VList l => Ok (existsb (fun x => py_eq_str x k) l)
  | VStr s => Ok (bool_decide (is_Some (String.index 0 k s)))
  | _ => Raise TypeError
  end.

(** [v[k]] for a string key [k] *)
Definition py_getitem (v : value) (k : string) : result value :=
  match v with
  | VDict d =>
      match d !! k with
      | Some x => Ok x
      | None => Raise (KeyError k)
      end
  | _ => Raise TypeError
  end.

(** [del v[k]] *)
Definition py_delitem (v : value) (k : string) : result value :=
  match v with
  | VDict d =>
      match d !! k with
      | Some _ => Ok (VDict (delete k d))
      | None => Raise (KeyError k)
      end
  | _ => Raise TypeError
  end.

(** [v[k] = x] *)
Definition py_setitem (v : value) (k : string) (x : value) : result value :=
  match v with
  | VDict d => Ok (VDict (<[k := x]> d))
  | _ => Raise TypeError
  end.

(** [d.update(d')]: the entries of [d'] win. *)
Definition dict_update (d d' : gmap string value) : gmap string value := d' ∪ d.

Definition str_of_Z (n : Z) : string := NilZero.string_of_int (Z.to_int n).

(** [s] occurs in [t] *)
Definition occurs_in (s t : string) : Prop := exists pre post, t = pre ++ s ++ post.

(** ** base64.b64encode (RFC 4648, with padding) *)

Definition b64_alphabet : string :=
  "ABCDEFGHIJKLMNOPQRSTUVWXYZabcdefghijklmnopqrstuvwxyz0123456789+/".

Definition b64_char (n : N) : ascii :=
  match String.get (N.to_nat (N.land n 63)) b64_alphabet with
  | Some c => c
  | None => "="%char
  end.

Fixpoint b64encode (bs : list byte) : string :=
  match bs with
  | [] => ""
  | [a] =>
      let n := N.shiftl (Byte.to_N a) 16 in
      String (b64_char (N.shiftr n 18)) (String (b64_char (N.shiftr n 12)) "==")
  | [a; b] =>
      let n := N.lor (N.shiftl (Byte.to_N a) 16) (N.shiftl (Byte.to_N b) 8) in
      String (b64_char (N.shiftr n 18)) (String (b64_char (N.shiftr n 12))
        (String (b64_char (N.shiftr n 6)) "="))
  | a :: b :: c :: rest =>
      let n := N.lor (N.lor (N.shiftl (Byte.to_N a) 16) (N.shiftl (Byte.to_N b) 8))
                     (Byte.to_N c) in
      String (b64_char (N.shiftr n 18)) (String (b64_char (N.shiftr n 12))
        (String (b64_char (N.shiftr n 6)) (String (b64_char n) (b64encode rest))))
  end.

(** ** The world outside the module *)

Class Runtime : Type := {
  (** [requests.get(url).content] *)
  requests_get_content : string -> result (list byte);
  (** [requests.post(url, json=data).json()], given the requests sent before *)
  requests_post_json : list (string * value) -> string -> value -> result value;
  (** [repr] of a float, a list or a dict *)
  py_repr : value -> string
}.

(** ** Enumerations *)

(** [STANDARD_RUS = 1] repeats the value of [STANDARD_ENG], which makes it an
    alias of that member in a Python [Enum]. *)
Inductive Queue : Type :=
  | STANDARD_ENG
  | RECAPTCHA
  | RECAPTCHA_PROXYLESS
  | FUNCAPTCHA
  | FUNCAPTCHA_PROXYLESS.

Definition STANDARD_RUS : Queue := STANDARD_ENG.

Definition Queue_value (q : Queue) : Z :=
  match q with
  | STANDARD_ENG => 1
  | RECAPTCHA => 5
  | RECAPTCHA_PROXYLESS => 6
  | FUNCAPTCHA => 7
  | FUNCAPTCHA_PROXYLESS => 8
  end.

Inductive Numeric : Type :=
  | NO_REQUIREMENTS
  | ONLY_NUMBERS
  | ONLY_LETTERS.

Definition Numeric_value (n : Numeric) : Z :=
  match n with
  | NO_REQUIREMENTS => 0
  | ONLY_NUMBERS => 1
  | ONLY_LETTERS => 2
  end.

Inductive LanguagePool : Type :=
  | ENGLISH
  | RUSSIAN.

Definition LanguagePool_value (l : LanguagePool) : string :=
  match l with
  | ENGLISH => "en"
  | RUSSIAN => "rn"
  end.

(** ** Task *)

Record Task : Type := { data : gmap string value }.

Definition Task_init (task_type : string) : Task :=
  {| data := {[ "type" := VStr task_type ]} |}.

(** The loop of [build]: every item of [self.data] whose value is not [None]
    is stored in a fresh dictionary. *)
Definition build (self : Task) : gmap string value :=
  map_fold (fun k v acc => if is_None_value v then acc else <[k := v]> acc)
           ∅ (data self).

(** An argument left at its default [None], or given. *)
Definition py_opt {A : Type} (f : A -> value) (o : option A) : value :=
  match o with
  | Some a => f a
  | None => VNone
  end.

Section Tasks.
Context `{Runtime}.

(** [bytes.decode()] of the base64 alphabet is the same characters. *)
Definition base64_encode (url : string) : result string :=
  content ← requests_get_content url;
  mret (b64encode content).

(** [numeric.value if numeric else None]: a member of a plain [Enum] is
    truthy, also the one whose value is 0. *)
Definition ImageToTextTask_init (image_url : string)
    (phrase case : option bool) (numeric : option Numeric)
    (math : option bool) (min_length max_length : option Z) : result Task :=
  let self := Task_init "ImageToTextTask" in
  body ← base64_encode image_url;
  mret {| data := dict_update (data self)
            (<["body" := VStr body]>
            (<["phrase" := py_opt VBool phrase]>
            (<["case" := py_opt VBool case]>
            (<["numeric" := py_opt (fun n => VInt (Numeric_value n)) numeric]>
            (<["math" := py_opt VBool math]>
            (<["minLength" := py_opt VInt min_length]>
            (<["maxLength" := py_opt VInt max_length]> ∅))))))) |}.

End Tasks.

(** ** AntiCaptchaService *)

Record AntiCaptchaService : Type := {
  client_key : string;
  soft_id : option Z
}.

Definition AntiCaptchaService_init (client_key : string) (soft_id : option Z)
  : AntiCaptchaService :=
  {| client_key := client_key; soft_id := soft_id |}.

(** A method runs on the instance it is called on and on the requests posted
    so far; it may change either, and it returns or raises. *)
Record state : Type := {
  this : AntiCaptchaService;
  posted : list (string * value)
}.

Definition M (A : Type) : Type := state -> result A * state.

#[export] Instance M_ret : MRet M := fun _ a st => (Ok a, st).
#[export] Instance M_bind : MBind M := fun _ _ f m st =>
  match m st with
  | (Ok a, st') => f a st'
  | (Raise e, st') => (Raise e, st')
  end.

Definition raise {A : Type} (e : exn) : M A := fun st => (Raise e, st).

Definition lift {A : Type} (r : result A) : M A := fun st => (r, st).

Definition get_this : M AntiCaptchaService := fun st => (Ok (this st), st).

Definition HOST_ADDRESS_format (method : string) : string :=
  "https://api.anti-captcha.com/" ++ method.

(** [str(v)], as [str.format] renders a [{}] field. *)
Definition py_str `{Runtime} (v : value) : string :=
  match v with
  | VNone => "None"
  | VBool true => "True"
  | VBool false => "False"
  | VInt n => str_of_Z n
  | VStr s => s
  | _ => py_repr v
  end.

(** ['{} ({}): {}'.format(a, b, c)] *)
Definition format_error `{Runtime} (a b c : value) : string :=
  py_str a ++ " (" ++ py_str b ++ "): " ++ py_str c.

Section Service.
Context `{Runtime}.

Definition post_json (url : string) (body : value) : M value := fun st =>
  (requests_post_json (posted st) url body,
   {| this := this st; posted := posted st ++ [(url, body)] |}).

(** The static method [__request]. *)
Definition __request (method : string) (body : value) : M value :=
  response ← post_json (HOST_ADDRESS_format method) body;
  has_error_id ← lift (py_contains "errorId" response);
  if has_error_id : bool then
    error_id ← lift (py_getitem response "errorId");
    positive ← lift (py_gt0 error_id);
    if positive : bool then
      a ← lift (py_getitem response "errorId");
      b ← lift (py_getitem response "errorCode");
      c ← lift (py_getitem response "errorDescription");
      raise (CaptchaException (format_error a b c))
    else
      response ← lift (py_delitem response "errorId");
      mret response
  else mret response.

Definition get_balance : M value :=
  self ← get_this;
  let body := VDict {[ "clientKey" := VStr (client_key self) ]} in
  response ← __request "getBalance" body;
  lift (py_getitem response "balance").

Definition get_queue_stats (queue_id : Queue) : M value :=
  self ← get_this;
  let body := VDict (<["clientKey" := VStr (client_key self)]>
                    (<["queueId" := VInt (Queue_value queue_id)]> ∅)) in
  __request "getQueueStats" body.

Definition create_task (task : Task) (lang_pool : LanguagePool)
    (callback_url : option string) : M value :=
  self ← get_this;
  let body := <["clientKey" := VStr (client_key self)]>
             (<["languagePool" := VStr (LanguagePool_value lang_pool)]>
             (<["task" := VDict (build task)]> ∅)) in
  let body := match callback_url with
              | Some url => <["callbackUrl" := VStr url]> body
              | None => body
              end in
  let body := match soft_id self with
              | Some id => <["softId" := VInt id]> body
              | None => body
              end in
  response ← __request "createTask" (VDict body);
  lift (py_getitem response "taskId").

(** The defaults of the signature:
    [lang_pool = LanguagePool.ENGLISH, callback_url = None]. *)
Definition create_task_default (task : Task) : M value :=
  create_task task ENGLISH None.

Definition get_task_result (task_id : Z) : M value :=
  self ← get_this;
  let body := VDict (<["clientKey" := VStr (client_key self)]>
                    (<["taskId" := VInt task_id]> ∅)) in
  response ← __request "getTaskResult" body;
  status ← lift (py_getitem response "status");
  lift (py_setitem response "status" (VBool (py_eq_str status "ready"))).

Definition report (task_id : Z) : M value :=
  self ← get_this;
  let body := VDict (<["clientKey" := VStr (client_key self)]>
                    (<["taskId" := VInt task_id]> ∅)) in
  response ← __request "reportIncorrectImageCaptcha" body;
  status ← lift (py_getitem response "status");
  mret (VBool (py_eq_str status "success")).

End Service.

(** ** The five operations as one interface *)

Inductive operation : Type :=
  | GetBalance
  | GetQueueStats (queue_id : Queue)
  | CreateTask (task : Task) (lang_pool : LanguagePool) (callback_url : option string)
  | GetTaskResult (task_id : Z)
  | Report (task_id : Z).

Definition run_op `{Runtime} (op : operation) : M value :=
  match op with
  | GetBalance => get_balance
  | GetQueueStats queue_id => get_queue_stats queue_id
  | CreateTask task lang_pool callback_url => create_task task lang_pool callback_url
  | GetTaskResult task_id => get_task_result task_id
  | Report task_id => report task_id
  end.

(** The method name an operation puts in the address. *)
Definition op_method (op : operation) : string :=
  match op with
  | GetBalance => "getBalance"
  | GetQueueStats _ => "getQueueStats"
  | CreateTask _ _ _ => "createTask"
  | GetTaskResult _ => "getTaskResult"
  | Report _ => "reportIncorrectImageCaptcha"
  end.

(** The request of [create_task] in the words of the interface description:
    [clientKey], [languagePool] and [task] always, [callbackUrl] and [softId]
    when they were provided. *)
Definition create_task_request (self : AntiCaptchaService) (task : Task)
    (lang_pool : LanguagePool) (callback_url : option string) : gmap string value :=
  list_to_map
    ([("clientKey", VStr (client_key self));
      ("languagePool", VStr (LanguagePool_value lang_pool));
      ("task", VDict (build task))]
     ++ match callback_url with Some url => [("callbackUrl", VStr url)] | None => [] end
     ++ match soft_id self with Some id => [("softId", VInt id)] | None => [] end).

(** The JSON body an operation posts. *)
Definition op_body (self : AntiCaptchaService) (op : operation) : value :=
  match op with
  | GetBalance => VDict {[ "clientKey" := VStr (client_key self) ]}
  | GetQueueStats queue_id =>
      VDict (<["clientKey" := VStr (client_key self)]>
            (<["queueId" := VInt (Queue_value queue_id)]> ∅))
  | CreateTask task lang_pool callback_url =>
      VDict (create_task_request self task lang_pool callback_url)
  | GetTaskResult task_id | Report task_id =>
      VDict (<["clientKey" := VStr (client_key self)]>
            (<["taskId" := VInt task_id]> ∅))
  end.

(** What [__request] does with the parsed response. *)
Definition check_response `{Runtime} (response : value) : result value :=
  has_error_id ← py_contains "errorId" response;
  if has_error_id : bool then
    error_id ← py_getitem response "errorId";
    positive ← py_gt0 error_id;
    if positive : bool then
      a ← py_getitem response "errorId";
      b ← py_getitem response "errorCode";
      c ← py_getitem response "errorDescription";
      Raise (CaptchaException (format_error a b c))
    else py_delitem response "errorId"
  else Ok response.

(** What an operation does with the value [__request] returned. *)
Definition op_finish (op : operation) (response : value) : result value :=
  match op with
  | GetBalance => py_getitem response "balance"
  | GetQueueStats _ => Ok response
  | CreateTask _ _ _ => py_getitem response "taskId"
  | GetTaskResult _ =>
      status ← py_getitem response "status";
      py_setitem response "status" (VBool (py_eq_str status "ready"))
  | Report _ =>
      status ← py_getitem response "status";
      Ok (VBool (py_eq_str status "success"))
  end.

(** The state an operation leaves: the instance as it was, one more request. *)
Definition after_post (st : state) (op : operation) : state :=
  {| this := this st;
     posted := posted st
               ++ [(HOST_ADDRESS_format (op_method op), op_body (this st) op)] |}.

(** The answer of the service to the request of [op] in state [st]. *)
Definition answer `{Runtime} (st : state) (op : operation) : result value :=
  requests_post_json (posted st) (HOST_ADDRESS_format (op_method op))
                     (op_body (this st) op).

(** A response without error: no [errorId], or one that is not positive. *)
Definition no_error (d : gmap string value) : Prop :=
  match d !! "errorId" with
  | None => True
  | Some e => py_gt0 e = Ok false
  end.

(** Which way a task was constructed, and with which discriminant. *)
Inductive constructed `{Runtime} : string -> Task -> Prop :=
  | constructed_Task (task_type : string) :
      constructed task_type (Task_init task_type)
  | constructed_ImageToTextTask (image_url : string) (phrase case : option bool)
      (numeric : option Numeric) (math : option bool)
      (min_length max_length : option Z) (t : Task) :
      ImageToTextTask_init image_url phrase case numeric math min_length max_length
        = Ok t ->
      constructed "ImageToTextTask" t.

(** ** A service with one canned answer, for the examples *)

(** The double 12.5, that is 7036874417766400 * 2^-49. *)
Definition float_12_5 : spec_float := S754_finite false 7036874417766400 (-49).

Definition canned (response : value) : Runtime :=
  {| requests_get_content := fun _ => Ok [x4d; x61; x6e]%byte;
     requests_post_json := fun _ _ _ => Ok response;
     py_repr := fun _ => "<repr>" |}.

Definition client0 : state :=
  {| this := AntiCaptchaService_init "KEY" None; posted := [] |}.

Definition client1 : state :=
  {| this := AntiCaptchaService_init "KEY" (Some 0); posted := [] |}.

(** The answers used in the examples. *)

Definition error_response : gmap string value :=
  <["errorId" := VInt 1]>
  (<["errorCode" := VStr "ERROR_X"]>
  (<["errorDescription" := VStr "bad"]> ∅)).

Definition bare_error_response : gmap string value := {[ "errorId" := VInt 1 ]}.

Definition balance_response : gmap string value :=
  <["errorId" := VInt 0]> (<["balance" := VFloat float_12_5]> ∅).

Definition negative_response : gmap string value :=
  <["errorId" := VInt (-3)]> (<["balance" := VFloat float_12_5]> ∅).

Definition ready_response : gmap string value :=
  <["errorId" := VInt 0]> (<["status" := VStr "ready"]> (<["solveCount" := VInt 1]> ∅)).

Definition processing_response : gmap string value :=
  <["errorId" := VInt 0]> (<["status" := VStr "processing"]> ∅).

Definition success_response : gmap string value :=
  <["errorId" := VInt 0]> (<["status" := VStr "success"]> ∅).

Definition created_response : gmap string value :=
  <["errorId" := VInt 0]> (<["taskId" := VInt 7654321]> ∅).
(** ** Callers and classifications used by the further properties *)

(** The address and the body of the request an operation posts. *)
Definition request_of (self : AntiCaptchaService) (op : operation) : string * value :=
  (HOST_ADDRESS_format (op_method op), op_body self op).

(** A caller that runs operations one after the other and keeps every
    outcome, returned or raised. *)
Fixpoint run_each `{Runtime} (ops : list operation) (st : state)
  : list (result value) * state :=
  match ops with
  | [] => ([], st)
  | op :: rest =>
      let (r, st') := run_op op st in
      let (rs, st'') := run_each rest st' in
      (r :: rs, st'')
  end.

(** A JSON object *)
Definition is_object (v : value) : bool :=
  match v with
  | VDict _ => true
  | _ => false
  end.

(** A value that orders against [0]: [bool], [int] or [float]. *)
Definition is_number (v : value) : bool :=
  match v with
  | VBool _ | VInt _ | VFloat _ => true
  | _ => false
  end.

(** A service that cannot be reached, for the examples. *)
Definition unreachable : Runtime :=
  {| requests_get_content := fun url => Raise (RequestException url);
     requests_post_json := fun _ url _ => Raise (RequestException url);
     py_repr := fun _ => "<repr>" |}.

Definition text_error_response : gmap string value :=
  <["errorId" := VStr "1"]> (<["balance" := VFloat float_12_5]> ∅).

Definition half_error_response : gmap string value :=
  <["errorId" := VInt 2]> (<["errorCode" := VStr "ERROR_Y"]> ∅).


(** * Properties *)

(** ** build *)

Lemma build_lookup (t : Task) (k : string) :
  build t !! k = match data t !! k with
                 | Some VNone => None
                 | o => o
                 end.
Proof.
  unfold build. revert k.
  apply (map_fold_weak_ind (fun (r m : gmap string value) => forall k : string,
    r !! k = match m !! k with Some VNone => None | o => o end)).
  - intros k. by rewrite lookup_empty.
  - intros i x m r Hi IH k.
    destruct (decide (i = k)) as [->|Hne].
    + rewrite lookup_insert_eq.
      destruct x; simpl; rewrite ?lookup_insert_eq; try done.
      rewrite IH, Hi. done.
    + rewrite (lookup_insert_ne m) by done.
      destruct x; simpl; rewrite ?lookup_insert_ne by done; apply IH.
Qed.

Lemma build_lookup_Some (t : Task) (k : string) (v : value) :
  build t !! k = Some v <-> data t !! k = Some v /\ is_None_value v = false.
Proof.
  rewrite build_lookup.
  destruct (data t !! k) as [[]|]; simpl; split;
    first [ by intros [= <-] | by intros [[= <-] ?] | done | by intros [? ?] ].
Qed.

Lemma build_keeps (t : Task) (k : string) (v : value) :
  data t !! k = Some v -> is_None_value v = false -> build t !! k = Some v.
Proof. intros. by apply build_lookup_Some. Qed.

Lemma build_drops (t : Task) (k : string) :
  data t !! k = None \/ data t !! k = Some VNone -> build t !! k = None.
Proof. rewrite build_lookup. by intros [-> | ->]. Qed.

Section TaskFacts.
Context `{Runtime}.

Lemma ImageToTextTask_init_Ok image_url phrase case numeric math min_length max_length t :
  ImageToTextTask_init image_url phrase case numeric math min_length max_length = Ok t ->
  exists content,
    requests_get_content image_url = Ok content /\
    data t = dict_update (data (Task_init "ImageToTextTask"))
            (<["body" := VStr (b64encode content)]>
            (<["phrase" := py_opt VBool phrase]>
            (<["case" := py_opt VBool case]>
            (<["numeric" := py_opt (fun n => VInt (Numeric_value n)) numeric]>
            (<["math" := py_opt VBool math]>
            (<["minLength" := py_opt VInt min_length]>
            (<["maxLength" := py_opt VInt max_length]> ∅))))))).
Proof.
  unfold ImageToTextTask_init, base64_encode. 
  destruct (requests_get_content image_url) as [content|e] eqn:E; simpl; [|done].
  intros [= <-]. by exists content.
Qed.

End TaskFacts.

(** ** The shape of a call *)

Section ServiceFacts.
Context `{Runtime}.

Lemma request_run (method : string) (body : value) (st : state) :
  __request method body st =
    (requests_post_json (posted st) (HOST_ADDRESS_format method) body
       ≫= check_response,
     {| this := this st;
        posted := posted st ++ [(HOST_ADDRESS_format method, body)] |}).
Proof.
  unfold __request, check_response, post_json, mbind, M_bind, result_bind, lift,
    raise, mret, M_ret; simpl.
  destruct (requests_post_json _ _ _) as [response|e]; [|done].
  destruct (py_contains "errorId" response) as [[]|]; try done.
  destruct (py_getitem response "errorId") as [error_id|]; try done.
  destruct (py_gt0 error_id) as [[]|]; try done.
  - destruct (py_getitem response "errorCode"); try done.
    destruct (py_getitem response "errorDescription"); done.
  - destruct (py_delitem response "errorId"); done.
Qed.

Lemma create_task_body (self : AntiCaptchaService) (task : Task)
    (lang_pool : LanguagePool) (callback_url : option string) :
  match soft_id self with
  | Some id => <["softId" := VInt id]>
  | None => fun body => body
  end
    (match callback_url with
     | Some url => <["callbackUrl" := VStr url]>
     | None => fun body => body
     end
       (<["clientKey" := VStr (client_key self)]>
       (<["languagePool" := VStr (LanguagePool_value lang_pool)]>
       (<["task" := VDict (build task)]> ∅))))
  = create_task_request self task lang_pool callback_url.
Proof.
  unfold create_task_request.
  destruct (soft_id self), callback_url; simpl;
    apply map_eq; intros k;
    repeat (rewrite lookup_insert; case_decide; [done|]); done.
Qed.

Lemma run_op_run (op : operation) (st : state) :
  run_op op st = ((answer st op ≫= check_response) ≫= op_finish op, after_post st op).
Proof.
  unfold answer, after_post.
  destruct op; simpl;
    unfold get_balance, get_queue_stats, create_task, get_task_result, report;
    unfold mbind at 1; unfold M_bind at 1; unfold get_this.
  - unfold mbind at 1, M_bind at 1. rewrite request_run.
    destruct (_ ≫= check_response); done.
  - rewrite request_run. destruct (_ ≫= check_response); done.
  - unfold mbind at 1, M_bind at 1. rewrite request_run.
    replace (match soft_id (this st) with Some id => _ | None => _ end)
      with (create_task_request (this st) task lang_pool callback_url).
    { destruct (_ ≫= check_response); done. }
    rewrite <- create_task_body. destruct (soft_id (this st)), callback_url; done.
  - unfold mbind at 1, M_bind at 1. rewrite request_run.
    destruct (_ ≫= check_response) as [response|]; [|done].
    unfold mbind at 1, M_bind at 1, lift. simpl.
    destruct (py_getitem response "status"); done.
  - unfold mbind at 1, M_bind at 1. rewrite request_run.
    destruct (_ ≫= check_response) as [response|]; [|done].
    unfold mbind at 1, M_bind at 1, lift. simpl.
    destruct (py_getitem response "status"); done.
Qed.

(** ** What [__request] makes of a JSON object *)

Lemma check_absent (d : gmap string value) :
  d !! "errorId" = None -> check_response (VDict d) = Ok (VDict d).
Proof.
  intros Hd. unfold check_response, py_contains, mbind, result_bind.
  rewrite Hd, bool_decide_eq_false_2; [done|]. by intros [? ?].
Qed.

Lemma check_not_positive (d : gmap string value) (e : value) :
  d !! "errorId" = Some e -> py_gt0 e = Ok false ->
  check_response (VDict d) = Ok (VDict (delete "errorId" d)).
Proof.
  intros Hd He.
  unfold check_response, py_contains, py_getitem, py_delitem, mbind, result_bind.
  rewrite Hd, bool_decide_eq_true_2 by eauto. by rewrite He.
Qed.

Lemma check_positive (d : gmap string value) (e : value) :
  d !! "errorId" = Some e -> py_gt0 e = Ok true ->
  check_response (VDict d) =
    match d !! "errorCode", d !! "errorDescription" with
    | Some code, Some description =>
        Raise (CaptchaException (format_error e code description))
    | None, _ => Raise (KeyError "errorCode")
    | Some _, None => Raise (KeyError "errorDescription")
    end.
Proof.
  intros Hd He.
  unfold check_response, py_contains, py_getitem, mbind, result_bind.
  rewrite Hd, bool_decide_eq_true_2 by eauto. rewrite He.
  destruct (d !! "errorCode"); [|done].
  destruct (d !! "errorDescription"); done.
Qed.

Lemma check_no_error (d : gmap string value) :
  no_error d -> check_response (VDict d) = Ok (VDict (delete "errorId" d)).
Proof.
  unfold no_error. destruct (d !! "errorId") as [e|] eqn:Hd.
  - intros He. by eapply check_not_positive.
  - intros _. rewrite check_absent by done. by rewrite delete_id.
Qed.

Lemma append_assoc (s1 s2 s3 : string) : (s1 +:+ s2) +:+ s3 = s1 +:+ (s2 +:+ s3).
Proof.
  induction s1 as [|c s1 IH]; [done|].
  change (String c ((s1 +:+ s2) +:+ s3) = String c (s1 +:+ (s2 +:+ s3))).
  by rewrite IH.
Qed.

Lemma append_empty_r (s : string) : s +:+ "" = s.
Proof.
  induction s as [|c s IH]; [done|].
  change (String c (s +:+ "") = String c s). by rewrite IH.
Qed.

Lemma format_error_occurs (a b c : value) :
  occurs_in (py_str a) (format_error a b c) /\
  occurs_in (py_str b) (format_error a b c) /\
  occurs_in (py_str c) (format_error a b c).
Proof.
  unfold format_error, occurs_in. repeat split.
  - by exists "", (" (" +:+ py_str b +:+ "): " +:+ py_str c).
  - exists (py_str a +:+ " ("), ("): " +:+ py_str c). by rewrite !append_assoc.
  - exists (py_str a +:+ " (" +:+ py_str b +:+ "): "), "".
    by rewrite append_empty_r, !append_assoc.
Qed.

End ServiceFacts.

(** ** Task payloads *)

Section TaskClaims.
Context `{Runtime}.

Lemma ImageToTextTask_lookup image_url phrase case numeric math min_length max_length t :
  ImageToTextTask_init image_url phrase case numeric math min_length max_length = Ok t ->
  build t !! "type" = Some (VStr "ImageToTextTask") /\
  (exists content, requests_get_content image_url = Ok content /\
                   build t !! "body" = Some (VStr (b64encode content))) /\
  build t !! "phrase" = VBool <$> phrase /\
  build t !! "case" = VBool <$> case /\
  build t !! "numeric" = (fun n => VInt (Numeric_value n)) <$> numeric /\
  build t !! "math" = VBool <$> math /\
  build t !! "minLength" = VInt <$> min_length /\
  build t !! "maxLength" = VInt <$> max_length /\
  (forall k : string,
     k ∉ ["type"; "body"; "phrase"; "case"; "numeric"; "math"; "minLength"; "maxLength"] ->
     build t !! k = None).
Proof.
  intros (content & Hget & Hdata)%ImageToTextTask_init_Ok.
  assert (Hlook : forall k, build t !! k =
            match data t !! k with Some VNone => None | o => o end)
    by apply build_lookup.
  rewrite Hdata in Hlook. unfold dict_update, Task_init in Hlook. simpl in Hlook.
  repeat split.
  - by rewrite Hlook.
  - exists content. split; [done|]. by rewrite Hlook.
  - rewrite Hlook. by destruct phrase.
  - rewrite Hlook. by destruct case.
  - rewrite Hlook. by destruct numeric.
  - rewrite Hlook. by destruct math.
  - rewrite Hlook. by destruct min_length.
  - rewrite Hlook. by destruct max_length.
  - intros k Hk. rewrite Hlook.
    rewrite !not_elem_of_cons in Hk. destruct Hk as (?&?&?&?&?&?&?&?&_).
    rewrite lookup_union.
    repeat (rewrite lookup_insert_ne by done). rewrite lookup_empty.
    by rewrite lookup_singleton_ne.
Qed.

End TaskClaims.

(** C1. The mapping returned by [build] holds only what was supplied: on any
    [Task] an entry of the output is an entry of [self.data] whose value is
    not [None], and an entry that is missing or [None] in [self.data] is
    absent from the output; on an [ImageToTextTask] each optional key is
    present exactly when its argument was given, with that value, and no key
    outside the eight of the constructor appears. *)
Theorem build_only_supplied `{Runtime} :
  (forall (t : Task) (k : string) (v : value),
     build t !! k = Some v -> data t !! k = Some v /\ is_None_value v = false) /\
  (forall (t : Task) (k : string),
     data t !! k = None \/ data t !! k = Some VNone -> build t !! k = None) /\
  (forall image_url phrase case numeric math min_length max_length t,
     ImageToTextTask_init image_url phrase case numeric math min_length max_length
       = Ok t ->
     build t !! "phrase" = VBool <$> phrase /\
     build t !! "case" = VBool <$> case /\
     build t !! "numeric" = (fun n => VInt (Numeric_value n)) <$> numeric /\
     build t !! "math" = VBool <$> math /\
     build t !! "minLength" = VInt <$> min_length /\
     build t !! "maxLength" = VInt <$> max_length /\
     (forall k : string,
        k ∉ ["type"; "body"; "phrase"; "case"; "numeric"; "math";
             "minLength"; "maxLength"] ->
        build t !! k = None)).
Proof.
  split; [|split].
  - intros t k v Hk. by apply build_lookup_Some.
  - intros t k Hk. by apply build_drops.
  - intros image_url phrase case numeric math min_length max_length t Ht.
    apply ImageToTextTask_lookup in Ht. tauto.
Qed.

(** The scenario of the description: only [phrase=True] is given, and the
    image is the three bytes of "Man". *)
Lemma build_only_supplied_witness :
  exists t,
    @ImageToTextTask_init (canned VNone) "http://host/captcha.png"
      (Some true) None None None None None = Ok t /\
    build t !! "phrase" = Some (VBool true) /\
    build t !! "case" = None /\
    build t !! "numeric" = None /\
    build t !! "math" = None /\
    build t !! "minLength" = None /\
    build t !! "maxLength" = None.
Proof.
  eexists. split; [reflexivity|].
  pose proof (proj2 (proj2 (@build_only_supplied (canned VNone)))
                "http://host/captcha.png" (Some true) None None None None None
                _ eq_refl) as (Hp & Hc & Hn & Hm & Hmin & Hmax & _).
  exact (conj Hp (conj Hc (conj Hn (conj Hm (conj Hmin Hmax))))).
Defined.

(** C4. A value that was given and is falsy stays in the output of [build]:
    [False] for [phrase], [case] and [math], [0] for [min_length] and
    [max_length], and [Numeric.NO_REQUIREMENTS] as the wire value [0]; on any
    [Task] an entry [False] or [0] of [self.data] is kept. *)
Theorem falsy_values_preserved `{Runtime}
    image_url phrase case numeric math min_length max_length t :
  ImageToTextTask_init image_url phrase case numeric math min_length max_length
    = Ok t ->
  (phrase = Some false -> build t !! "phrase" = Some (VBool false)) /\
  (case = Some false -> build t !! "case" = Some (VBool false)) /\
  (math = Some false -> build t !! "math" = Some (VBool false)) /\
  (min_length = Some 0 -> build t !! "minLength" = Some (VInt 0)) /\
  (max_length = Some 0 -> build t !! "maxLength" = Some (VInt 0)) /\
  (numeric = Some NO_REQUIREMENTS -> build t !! "numeric" = Some (VInt 0)) /\
  (forall (t' : Task) (k : string),
     (data t' !! k = Some (VBool false) -> build t' !! k = Some (VBool false)) /\
     (data t' !! k = Some (VInt 0) -> build t' !! k = Some (VInt 0))).
Proof.
  intros (_ & _ & Hp & Hc & Hn & Hm & Hmin & Hmax & _)%ImageToTextTask_lookup.
  repeat split.
  - intros ->. by rewrite Hp.
  - intros ->. by rewrite Hc.
  - intros ->. by rewrite Hm.
  - intros ->. by rewrite Hmin.
  - intros ->. by rewrite Hmax.
  - intros ->. by rewrite Hn.
  - intros Hk. by apply build_keeps.
  - intros Hk. by apply build_keeps.
Qed.

Lemma falsy_values_preserved_witness :
  exists t,
    @ImageToTextTask_init (canned VNone) "http://host/captcha.png"
      (Some false) (Some false) (Some NO_REQUIREMENTS) (Some false)
      (Some 0) (Some 0) = Ok t /\
    build t !! "phrase" = Some (VBool false) /\
    build t !! "case" = Some (VBool false) /\
    build t !! "math" = Some (VBool false) /\
    build t !! "minLength" = Some (VInt 0) /\
    build t !! "maxLength" = Some (VInt 0) /\
    build t !! "numeric" = Some (VInt 0).
Proof.
  eexists. split; [reflexivity|].
  pose proof (@falsy_values_preserved (canned VNone)
                "http://host/captcha.png" (Some false) (Some false)
                (Some NO_REQUIREMENTS) (Some false) (Some 0) (Some 0) _ eq_refl)
    as (Hp & Hc & Hm & Hmin & Hmax & Hn & _).
  exact (conj (Hp eq_refl) (conj (Hc eq_refl) (conj (Hm eq_refl)
           (conj (Hmin eq_refl) (conj (Hmax eq_refl) (Hn eq_refl)))))).
Defined.

(** C9. The output of [build] always has the key ['type'], bound to the
    discriminant the task was constructed with, whatever optional fields were
    given. *)
Theorem build_has_type `{Runtime} (task_type : string) (t : Task) :
  constructed task_type t -> build t !! "type" = Some (VStr task_type).
Proof.
  intros [ty | image_url phrase case numeric math min_length max_length t' Ht].
  - apply build_keeps; [|done]. apply lookup_singleton_eq.
  - by apply ImageToTextTask_lookup in Ht as (Hty & _).
Qed.

Lemma build_has_type_witness :
  exists t,
    @ImageToTextTask_init (canned VNone) "http://host/captcha.png"
      None (Some true) None None (Some 4) None = Ok t /\
    build t !! "type" = Some (VStr "ImageToTextTask").
Proof.
  eexists. split; [reflexivity|].
  apply (@build_has_type (canned VNone)).
  exact (@constructed_ImageToTextTask (canned VNone) "http://host/captcha.png"
           None (Some true) None None (Some 4) None _ eq_refl).
Defined.

(** ** Responses *)

Lemma py_eq_str_true (v : value) (s : string) :
  py_eq_str v s = true <-> v = VStr s.
Proof.
  destruct v; simpl; try (split; [discriminate | congruence]).
  rewrite String.eqb_eq. split; congruence.
Qed.

Lemma run_op_result `{Runtime} (op : operation) (st : state) (d : gmap string value) :
  answer st op = Ok (VDict d) ->
  (run_op op st).1 = check_response (VDict d) ≫= op_finish op.
Proof. intros Hd. by rewrite run_op_run, Hd. Qed.

Lemma request_result `{Runtime} (op : operation) (st : state) (d : gmap string value) :
  answer st op = Ok (VDict d) ->
  (__request (op_method op) (op_body (this st) op) st).1 = check_response (VDict d).
Proof. unfold answer. intros Hd. by rewrite request_run, Hd. Qed.

(** C2. When the parsed response has an [errorId] greater than zero, each of
    the five operations raises [CaptchaException] and returns no value; the
    message is made of the [errorId], [errorCode] and [errorDescription] of the
    response and contains the three of them. *)
Theorem error_response_raises `{Runtime}
    (op : operation) (st : state) (d : gmap string value)
    (e code description : value) :
  answer st op = Ok (VDict d) ->
  d !! "errorId" = Some e ->
  py_gt0 e = Ok true ->
  d !! "errorCode" = Some code ->
  d !! "errorDescription" = Some description ->
  (run_op op st).1 = Raise (CaptchaException (format_error e code description)) /\
  occurs_in (py_str e) (format_error e code description) /\
  occurs_in (py_str code) (format_error e code description) /\
  occurs_in (py_str description) (format_error e code description).
Proof.
  intros Hanswer He Hpos Hcode Hdescription.
  rewrite (run_op_result _ _ _ Hanswer), (check_positive _ _ He Hpos).
  rewrite Hcode, Hdescription. split; [done|]. apply format_error_occurs.
Qed.

Lemma error_response_raises_witness :
  (@run_op (canned (VDict error_response)) GetBalance client0).1
    = Raise (CaptchaException "1 (ERROR_X): bad") /\
  occurs_in "1" "1 (ERROR_X): bad" /\
  occurs_in "ERROR_X" "1 (ERROR_X): bad" /\
  occurs_in "bad" "1 (ERROR_X): bad".
Proof.
  exact (@error_response_raises (canned (VDict error_response))
           GetBalance client0 error_response (VInt 1) (VStr "ERROR_X") (VStr "bad")
           eq_refl eq_refl eq_refl eq_refl eq_refl).
Defined.

(** The synthetic error response of the description, on every operation. *)
Lemma error_response_example (op : operation) :
  (@run_op (canned (VDict error_response)) op client0).1
    = Raise (CaptchaException "1 (ERROR_X): bad").
Proof.
  rewrite (@run_op_result (canned (VDict error_response)) op client0
             error_response eq_refl).
  by rewrite (@check_positive (canned (VDict error_response))
                error_response (VInt 1) eq_refl eq_refl).
Qed.

(** With a positive [errorId] no operation returns a value, whatever else the
    response holds. *)
Lemma positive_error_id_raises `{Runtime}
    (op : operation) (st : state) (d : gmap string value) (e : value) :
  answer st op = Ok (VDict d) ->
  d !! "errorId" = Some e ->
  py_gt0 e = Ok true ->
  exists exc, (run_op op st).1 = Raise exc.
Proof.
  intros Hanswer He Hpos.
  rewrite (run_op_result _ _ _ Hanswer), (check_positive _ _ He Hpos).
  destruct (d !! "errorCode"), (d !! "errorDescription"); by eexists.
Qed.

(** Outside the error contract of the wire protocol: a positive [errorId]
    that comes without [errorCode] makes the subscript raise [KeyError]. *)
Lemma error_response_without_code (op : operation) :
  (@run_op (canned (VDict bare_error_response)) op client0).1
    = Raise (KeyError "errorCode").
Proof.
  rewrite (@run_op_result (canned (VDict bare_error_response)) op client0
             bare_error_response eq_refl).
  by rewrite (@check_positive (canned (VDict bare_error_response))
                bare_error_response (VInt 1) eq_refl eq_refl).
Qed.

(** C3. On a response whose [errorId] is 0 or absent, [get_task_result]
    returns the response with its [status] replaced by a boolean that is true
    exactly when the wire status is the string "ready". *)
Theorem get_task_result_ready `{Runtime}
    (task_id : Z) (st : state) (d : gmap string value) (status : value) :
  answer st (GetTaskResult task_id) = Ok (VDict d) ->
  d !! "errorId" = None \/ d !! "errorId" = Some (VInt 0) ->
  d !! "status" = Some status ->
  exists ready : bool,
    (get_task_result task_id st).1
      = Ok (VDict (<["status" := VBool ready]> (delete "errorId" d))) /\
    (ready = true <-> status = VStr "ready").
Proof.
  intros Hanswer Herr Hstatus.
  exists (py_eq_str status "ready"). split; [|apply py_eq_str_true].
  change (get_task_result task_id) with (run_op (GetTaskResult task_id)).
  rewrite (run_op_result _ _ _ Hanswer), check_no_error.
  - unfold op_finish, py_getitem, mbind, result_bind.
    by rewrite lookup_delete_ne, Hstatus.
  - unfold no_error. by destruct Herr as [-> | ->].
Qed.

Lemma get_task_result_ready_witness :
  exists ready : bool,
    (@get_task_result (canned (VDict processing_response)) 7654321 client0).1
      = Ok (VDict (<["status" := VBool ready]> (delete "errorId" processing_response))) /\
    (ready = true <-> VStr "processing" = VStr "ready").
Proof.
  exact (@get_task_result_ready (canned (VDict processing_response)) 7654321 client0
           processing_response (VStr "processing") eq_refl (or_intror eq_refl) eq_refl).
Defined.

Example get_task_result_processing :
  (@get_task_result (canned (VDict processing_response)) 7654321 client0).1
    = Ok (VDict {[ "status" := VBool false ]}).
Proof. vm_compute. reflexivity. Qed.

Example get_task_result_is_ready :
  (@get_task_result (canned (VDict ready_response)) 7654321 client0).1
    = Ok (VDict (<["status" := VBool true]> (<["solveCount" := VInt 1]> ∅))).
Proof. vm_compute. reflexivity. Qed.

(** C6. On a response without error, [report] returns a boolean that is true
    exactly when the [status] of the response is the string "success". *)
Theorem report_success `{Runtime}
    (task_id : Z) (st : state) (d : gmap string value) (status : value) :
  answer st (Report task_id) = Ok (VDict d) ->
  no_error d ->
  d !! "status" = Some status ->
  exists accepted : bool,
    (report task_id st).1 = Ok (VBool accepted) /\
    (accepted = true <-> status = VStr "success").
Proof.
  intros Hanswer Herr Hstatus.
  exists (py_eq_str status "success"). split; [|apply py_eq_str_true].
  change (report task_id) with (run_op (Report task_id)).
  rewrite (run_op_result _ _ _ Hanswer), (check_no_error _ Herr).
  unfold op_finish, py_getitem, mbind, result_bind.
  by rewrite lookup_delete_ne, Hstatus.
Qed.

Lemma report_success_witness :
  exists accepted : bool,
    (@report (canned (VDict success_response)) 7654321 client0).1
      = Ok (VBool accepted) /\
    (accepted = true <-> VStr "success" = VStr "success").
Proof.
  exact (@report_success (canned (VDict success_response)) 7654321 client0
           success_response (VStr "success") eq_refl eq_refl eq_refl).
Defined.

Example report_accepted :
  (@report (canned (VDict success_response)) 7654321 client0).1 = Ok (VBool true).
Proof. vm_compute. reflexivity. Qed.

Example report_refused :
  (@report (canned (VDict processing_response)) 7654321 client0).1 = Ok (VBool false).
Proof. vm_compute. reflexivity. Qed.

(** C5. An [errorId] equal to zero is removed from the response before it is
    used, so that what [__request] hands on (and what [get_queue_stats] and
    [get_task_result] return) has no [errorId] key; without an [errorId] the
    response is handed on as it is.  On [{errorId: 0, balance: 12.5}],
    [get_balance] returns [12.5]. *)
Theorem zero_error_id_stripped `{Runtime} :
  (forall (op : operation) (st : state) (d : gmap string value),
     answer st op = Ok (VDict d) ->
     (d !! "errorId" = Some (VInt 0) ->
      (__request (op_method op) (op_body (this st) op) st).1
        = Ok (VDict (delete "errorId" d)) /\
      delete "errorId" d !! "errorId" = None /\
      (run_op op st).1 = op_finish op (VDict (delete "errorId" d))) /\
     (d !! "errorId" = None ->
      (__request (op_method op) (op_body (this st) op) st).1 = Ok (VDict d) /\
      (run_op op st).1 = op_finish op (VDict d))) /\
  (forall (queue_id : Queue) (st : state) (d : gmap string value),
     answer st (GetQueueStats queue_id) = Ok (VDict d) ->
     d !! "errorId" = Some (VInt 0) ->
     (get_queue_stats queue_id st).1 = Ok (VDict (delete "errorId" d))) /\
  (forall (task_id : Z) (st : state) (d r : gmap string value),
     answer st (GetTaskResult task_id) = Ok (VDict d) ->
     d !! "errorId" = Some (VInt 0) ->
     (get_task_result task_id st).1 = Ok (VDict r) ->
     r !! "errorId" = None) /\
  (@get_balance (canned (VDict balance_response)) client0).1
    = Ok (VFloat float_12_5).
Proof.
  split; [|split; [|split]].
  - intros op st d Hanswer. split; intros Hd.
    + rewrite (request_result _ _ _ Hanswer), (run_op_result _ _ _ Hanswer).
      rewrite (check_not_positive d (VInt 0)) by done.
      split; [done|]. split; [apply lookup_delete_eq | done].
    + rewrite (request_result _ _ _ Hanswer), (run_op_result _ _ _ Hanswer).
      by rewrite check_absent.
  - intros queue_id st d Hanswer Hd.
    change (get_queue_stats queue_id) with (run_op (GetQueueStats queue_id)).
    rewrite (run_op_result _ _ _ Hanswer).
    by rewrite (check_not_positive d (VInt 0)).
  - intros task_id st d r Hanswer Hd.
    change (get_task_result task_id) with (run_op (GetTaskResult task_id)).
    rewrite (run_op_result _ _ _ Hanswer).
    rewrite (check_not_positive d (VInt 0)) by done.
    unfold op_finish, py_getitem, py_setitem, mbind, result_bind.
    destruct (delete "errorId" d !! "status"); [|done].
    intros [= <-]. rewrite lookup_insert_ne by done. apply lookup_delete_eq.
  - vm_compute. reflexivity.
Qed.

(** C8. An operation leaves the instance as it found it: [client_key] and
    [soft_id] are the same after the call, whatever the service answered. *)
Theorem operations_keep_instance `{Runtime} (op : operation) (st : state) :
  this (run_op op st).2 = this st /\
  client_key (this (run_op op st).2) = client_key (this st) /\
  soft_id (this (run_op op st).2) = soft_id (this st).
Proof. by rewrite run_op_run. Qed.

(** C10. A response whose [errorId] is negative is handled as one whose
    [errorId] is zero: [__request] raises nothing and hands the response on
    without [errorId], and the operation ends as it does on the same response
    with [errorId] set to 0. *)
Theorem negative_error_id_as_zero (R R0 : Runtime)
    (op : operation) (st : state) (d : gmap string value) (n : Z) :
  n < 0 ->
  d !! "errorId" = Some (VInt n) ->
  @answer R st op = Ok (VDict d) ->
  @answer R0 st op = Ok (VDict (<["errorId" := VInt 0]> d)) ->
  (@__request R (op_method op) (op_body (this st) op) st).1
    = Ok (VDict (delete "errorId" d)) /\
  (@run_op R op st).1 = op_finish op (VDict (delete "errorId" d)) /\
  @run_op R op st = @run_op R0 op st.
Proof.
  intros Hn Hd Hanswer Hanswer0.
  assert (Hcheck : @check_response R (VDict d) = Ok (VDict (delete "errorId" d))).
  { apply (check_not_positive d (VInt n)); [done|].
    simpl. f_equal. by apply Z.ltb_ge, Z.lt_le_incl. }
  assert (Hcheck0 : @check_response R0 (VDict (<["errorId" := VInt 0]> d))
                    = Ok (VDict (delete "errorId" d))).
  { rewrite (check_not_positive _ (VInt 0)); [|apply lookup_insert_eq|done].
    by rewrite delete_insert_eq. }
  rewrite (request_result _ _ _ Hanswer), (run_op_result _ _ _ Hanswer), Hcheck.
  split; [done|]. split; [done|].
  rewrite !run_op_run, Hanswer, Hanswer0.
  unfold mbind at 2 4. unfold result_bind at 2 4. by rewrite Hcheck, Hcheck0.
Qed.

Lemma negative_error_id_as_zero_witness :
  (@run_op (canned (VDict negative_response)) GetBalance client0).1
    = Ok (VFloat float_12_5) /\
  @run_op (canned (VDict negative_response)) GetBalance client0
    = @run_op (canned (VDict (<["errorId" := VInt 0]> negative_response)))
        GetBalance client0.
Proof.
  pose proof (@negative_error_id_as_zero
                (canned (VDict negative_response))
                (canned (VDict (<["errorId" := VInt 0]> negative_response)))
                GetBalance client0 negative_response (-3)
                eq_refl eq_refl eq_refl eq_refl) as (_ & Hr & Hsame).
  exact (conj Hr Hsame).
Defined.

(** ** create_task *)

Lemma create_task_request_lookup (self : AntiCaptchaService) (task : Task)
    (lang_pool : LanguagePool) (callback_url : option string) :
  let body := create_task_request self task lang_pool callback_url in
  body !! "clientKey" = Some (VStr (client_key self)) /\
  body !! "languagePool" = Some (VStr (LanguagePool_value lang_pool)) /\
  body !! "task" = Some (VDict (build task)) /\
  body !! "callbackUrl" = VStr <$> callback_url /\
  body !! "softId" = VInt <$> soft_id self /\
  (forall k : string,
     k ∉ ["clientKey"; "languagePool"; "task"; "callbackUrl"; "softId"] ->
     body !! k = None).
Proof.
  unfold create_task_request.
  destruct callback_url as [url|], (soft_id self) as [id|]; simpl;
    repeat split;
    try (intros k Hk; rewrite !not_elem_of_cons in Hk;
         destruct Hk as (?&?&?&?&?&_));
    repeat (rewrite lookup_insert; case_decide; try done).
Qed.

(** C7. [create_task] posts one request, to [createTask]; its body has
    [clientKey], [languagePool] (the wire code of the pool, "en" by default)
    and [task] (the output of [task.build()]), has [callbackUrl] exactly when
    [callback_url] was given and [softId] exactly when the client has a
    [soft_id], and has no other key.  When the response carries no error, the
    call returns its [taskId]. *)
Theorem create_task_contract `{Runtime} :
  (forall (task : Task) (lang_pool : LanguagePool) (callback_url : option string)
          (st : state),
     exists body : gmap string value,
       posted (create_task task lang_pool callback_url st).2
         = (posted st ++ [("https://api.anti-captcha.com/createTask", VDict body)])%list /\
       body !! "clientKey" = Some (VStr (client_key (this st))) /\
       body !! "languagePool" = Some (VStr (LanguagePool_value lang_pool)) /\
       body !! "task" = Some (VDict (build task)) /\
       body !! "callbackUrl" = VStr <$> callback_url /\
       body !! "softId" = VInt <$> soft_id (this st) /\
       (forall k : string,
          k ∉ ["clientKey"; "languagePool"; "task"; "callbackUrl"; "softId"] ->
          body !! k = None)) /\
  (forall task : Task, create_task_default task = create_task task ENGLISH None) /\
  LanguagePool_value ENGLISH = "en" /\
  (forall (task : Task) (lang_pool : LanguagePool) (callback_url : option string)
          (st : state) (d : gmap string value) (task_id : value),
     answer st (CreateTask task lang_pool callback_url) = Ok (VDict d) ->
     no_error d ->
     d !! "taskId" = Some task_id ->
     (create_task task lang_pool callback_url st).1 = Ok task_id).
Proof.
  split; [|split; [|split]]; try done.
  - intros task lang_pool callback_url st.
    exists (create_task_request (this st) task lang_pool callback_url).
    split; [|apply create_task_request_lookup].
    change (create_task task lang_pool callback_url)
      with (run_op (CreateTask task lang_pool callback_url)).
    by rewrite run_op_run.
  - intros task lang_pool callback_url st d task_id Hanswer Herr Hid.
    change (create_task task lang_pool callback_url)
      with (run_op (CreateTask task lang_pool callback_url)).
    rewrite (run_op_result _ _ _ Hanswer), (check_no_error _ Herr).
    unfold op_finish, py_getitem, mbind, result_bind.
    by rewrite lookup_delete_ne, Hid.
Qed.

Lemma create_task_contract_witness :
  (@create_task (canned (VDict created_response)) (Task_init "ImageToTextTask")
     RUSSIAN (Some "http://host/solved") client1).1 = Ok (VInt 7654321).
Proof.
  exact (proj2 (proj2 (proj2 (@create_task_contract (canned (VDict created_response)))))
           (Task_init "ImageToTextTask") RUSSIAN (Some "http://host/solved") client1
           created_response (VInt 7654321) eq_refl eq_refl eq_refl).
Defined.

(** A client without [soft_id], the defaults of the signature: three keys. *)
Example create_task_default_request :
  posted (@create_task_default (canned (VDict created_response))
            (Task_init "ImageToTextTask") client0).2
  = [("https://api.anti-captcha.com/createTask",
      VDict (<["clientKey" := VStr "KEY"]>
            (<["languagePool" := VStr "en"]>
            (<["task" := VDict {[ "type" := VStr "ImageToTextTask" ]}]> ∅))))].
Proof. vm_compute. reflexivity. Qed.

(** A [soft_id] of 0 and a callback address are both sent. *)
Example create_task_full_request :
  posted (@create_task (canned (VDict created_response))
            (Task_init "ImageToTextTask") RUSSIAN (Some "http://host/solved")
            client1).2
  = [("https://api.anti-captcha.com/createTask",
      VDict (<["clientKey" := VStr "KEY"]>
            (<["languagePool" := VStr "rn"]>
            (<["task" := VDict {[ "type" := VStr "ImageToTextTask" ]}]>
            (<["callbackUrl" := VStr "http://host/solved"]>
            (<["softId" := VInt 0]> ∅))))))].
Proof. vm_compute. reflexivity. Qed.

(** ** Further examples *)

(** The end-to-end scenario: only [phrase=True] is given. *)
Example ImageToTextTask_phrase_only :
  exists t : Task,
    @ImageToTextTask_init (canned VNone) "http://host/captcha.png"
      (Some true) None None None None None = Ok t /\
    build t = <["type" := VStr "ImageToTextTask"]>
             (<["body" := VStr "TWFu"]>
             (<["phrase" := VBool true]> ∅)).
Proof. eexists. split; [reflexivity|]. vm_compute. reflexivity. Qed.

Example get_balance_example :
  (@get_balance (canned (VDict balance_response)) client0).1 = Ok (VFloat float_12_5).
Proof. vm_compute. reflexivity. Qed.

Example get_queue_stats_request :
  posted (@get_queue_stats (canned (VDict balance_response)) STANDARD_RUS client0).2
  = [("https://api.anti-captcha.com/getQueueStats",
      VDict (<["clientKey" := VStr "KEY"]> (<["queueId" := VInt 1]> ∅)))].
Proof. vm_compute. reflexivity. Qed.

(** A response with neither error nor [status]: the [KeyError] of the
    subscript reaches the caller of [get_task_result] and of [report]. *)
Example status_missing :
  (@get_task_result (canned (VDict created_response)) 7654321 client0).1
    = Raise (KeyError "status") /\
  (@report (canned (VDict created_response)) 7654321 client0).1
    = Raise (KeyError "status").
Proof. split; vm_compute; reflexivity. Qed.

(** A transport failure reaches the caller as it is. *)
Lemma transport_failure `{Runtime} (op : operation) (st : state) (e : exn) :
  answer st op = Raise e -> (run_op op st).1 = Raise e.
Proof. intros He. by rewrite run_op_run, He. Qed.

(** * Further properties of the module *)

(** ** Requests *)

Lemma run_op_value `{Runtime} (op : operation) (st : state) (v : value) :
  answer st op = Ok v ->
  (run_op op st).1 = check_response v ≫= op_finish op.
Proof. intros Hv. by rewrite run_op_run, Hv. Qed.

(** X1. A call of any of the five operations posts one request, and only
    one, to the address of its method -- also when the call raises. *)
Theorem one_request_per_call `{Runtime} (op : operation) (st : state) :
  posted (run_op op st).2
    = (posted st
       ++ [("https://api.anti-captcha.com/" +:+ op_method op, op_body (this st) op)])%list /\
  length (posted (run_op op st).2) = S (length (posted st)).
Proof.
  rewrite run_op_run. split; [done|].
  unfold after_post; simpl. rewrite length_app; simpl. lia.
Qed.

(** X2. What the four operations other than [create_task] send: [clientKey]
    alone for [get_balance], [clientKey] and the numeric [queueId] for
    [get_queue_stats], [clientKey] and [taskId] for [get_task_result] and
    [report]; the [soft_id] of the client is in none of them. *)
Theorem plain_requests `{Runtime} (st : state) :
  posted (get_balance st).2
    = (posted st ++ [("https://api.anti-captcha.com/getBalance",
         VDict {[ "clientKey" := VStr (client_key (this st)) ]})])%list /\
  (forall queue_id : Queue,
     posted (get_queue_stats queue_id st).2
       = (posted st ++ [("https://api.anti-captcha.com/getQueueStats",
            VDict (<["clientKey" := VStr (client_key (this st))]>
                  (<["queueId" := VInt (Queue_value queue_id)]> ∅)))])%list) /\
  (forall task_id : Z,
     posted (get_task_result task_id st).2
       = (posted st ++ [("https://api.anti-captcha.com/getTaskResult",
            VDict (<["clientKey" := VStr (client_key (this st))]>
                  (<["taskId" := VInt task_id]> ∅)))])%list) /\
  (forall task_id : Z,
     posted (report task_id st).2
       = (posted st ++ [("https://api.anti-captcha.com/reportIncorrectImageCaptcha",
            VDict (<["clientKey" := VStr (client_key (this st))]>
                  (<["taskId" := VInt task_id]> ∅)))])%list) /\
  (forall (op : operation) (body : gmap string value),
     (forall task lang_pool callback_url, op <> CreateTask task lang_pool callback_url) ->
     op_body (this st) op = VDict body ->
     body !! "softId" = None).
Proof.
  split; [|split; [|split; [|split]]].
  - change get_balance with (run_op GetBalance). by rewrite run_op_run.
  - intros queue_id.
    change (get_queue_stats queue_id) with (run_op (GetQueueStats queue_id)).
    by rewrite run_op_run.
  - intros task_id.
    change (get_task_result task_id) with (run_op (GetTaskResult task_id)).
    by rewrite run_op_run.
  - intros task_id.
    change (report task_id) with (run_op (Report task_id)).
    by rewrite run_op_run.
  - intros op body Hop Hbody. destruct op; simpl in Hbody;
      try (injection Hbody as <-; done).
    by destruct (Hop task lang_pool callback_url).
Qed.

(** X3. An exception of the transport reaches the caller of any operation
    as it is: nothing is caught or wrapped, and the request counts as posted. *)
Theorem transport_error_propagates `{Runtime}
    (op : operation) (st : state) (e : exn) :
  answer st op = Raise e ->
  run_op op st = (Raise e, after_post st op).
Proof. intros He. by rewrite run_op_run, He. Qed.

Lemma transport_error_propagates_witness :
  @run_op unreachable (GetTaskResult 5) client0
    = (Raise (RequestException "https://api.anti-captcha.com/getTaskResult"),
       @after_post client0 (GetTaskResult 5)).
Proof.
  exact (@transport_error_propagates unreachable (GetTaskResult 5) client0
           (RequestException "https://api.anti-captcha.com/getTaskResult") eq_refl).
Defined.

(** ** Error handling of [__request] *)

(** X4. An [errorId] that is not a number ([null], a string, a list, an
    object) makes every operation raise [TypeError]: the comparison with [0]
    fails before any field is read. *)
Theorem non_numeric_error_id `{Runtime}
    (op : operation) (st : state) (d : gmap string value) (e : value) :
  answer st op = Ok (VDict d) ->
  d !! "errorId" = Some e ->
  is_number e = false ->
  (run_op op st).1 = Raise TypeError.
Proof.
  intros Hanswer He Hnum. rewrite (run_op_result _ _ _ Hanswer).
  unfold check_response, py_contains, py_getitem, mbind, result_bind.
  rewrite He, bool_decide_eq_true_2 by eauto.
  by destruct e.
Qed.

Lemma non_numeric_error_id_witness :
  (@run_op (canned (VDict text_error_response)) GetBalance client0).1 = Raise TypeError.
Proof.
  exact (@non_numeric_error_id (canned (VDict text_error_response)) GetBalance client0
           text_error_response (VStr "1") eq_refl eq_refl eq_refl).
Defined.

(** X5. A positive [errorId] in a response that lacks [errorCode] raises
    [KeyError('errorCode')]; with [errorCode] and without [errorDescription]
    it raises [KeyError('errorDescription')]. *)
Theorem incomplete_error_response `{Runtime}
    (op : operation) (st : state) (d : gmap string value) (e : value) :
  answer st op = Ok (VDict d) ->
  d !! "errorId" = Some e ->
  py_gt0 e = Ok true ->
  (d !! "errorCode" = None -> (run_op op st).1 = Raise (KeyError "errorCode")) /\
  (is_Some (d !! "errorCode") -> d !! "errorDescription" = None ->
   (run_op op st).1 = Raise (KeyError "errorDescription")).
Proof.
  intros Hanswer He Hpos.
  rewrite (run_op_result _ _ _ Hanswer), (check_positive _ _ He Hpos).
  split.
  - by intros ->.
  - by intros [code ->] ->.
Qed.

Lemma incomplete_error_response_witness :
  (@run_op (canned (VDict half_error_response)) (Report 5) client0).1
    = Raise (KeyError "errorDescription").
Proof.
  exact (proj2 (@incomplete_error_response (canned (VDict half_error_response))
                  (Report 5) client0 half_error_response (VInt 2)
                  eq_refl eq_refl eq_refl)
               (ex_intro _ (VStr "ERROR_Y") eq_refl) eq_refl).
Defined.

(** X6. On a response without error, [get_balance] returns the value under
    [balance] and [create_task] the value under [taskId], whatever that value
    is, and each raises [KeyError] when its key is missing; [get_queue_stats]
    returns the whole response but [errorId]; [get_task_result] and [report]
    raise [KeyError('status')] on a response without [status]. *)
Theorem payload_of_response `{Runtime} (st : state) (d : gmap string value) :
  no_error d ->
  (answer st GetBalance = Ok (VDict d) ->
   (get_balance st).1 = match d !! "balance" with
                        | Some v => Ok v
                        | None => Raise (KeyError "balance")
                        end) /\
  (forall task lang_pool callback_url,
     answer st (CreateTask task lang_pool callback_url) = Ok (VDict d) ->
     (create_task task lang_pool callback_url st).1
       = match d !! "taskId" with
         | Some v => Ok v
         | None => Raise (KeyError "taskId")
         end) /\
  (forall queue_id,
     answer st (GetQueueStats queue_id) = Ok (VDict d) ->
     (get_queue_stats queue_id st).1 = Ok (VDict (delete "errorId" d))) /\
  (forall task_id,
     answer st (GetTaskResult task_id) = Ok (VDict d) ->
     d !! "status" = None ->
     (get_task_result task_id st).1 = Raise (KeyError "status")) /\
  (forall task_id,
     answer st (Report task_id) = Ok (VDict d) ->
     d !! "status" = None ->
     (report task_id st).1 = Raise (KeyError "status")).
Proof.
  intros Herr. split; [|split; [|split; [|split]]].
  - intros Hanswer. change get_balance with (run_op GetBalance).
    rewrite (run_op_result _ _ _ Hanswer), (check_no_error _ Herr).
    unfold op_finish, py_getitem, mbind, result_bind. by rewrite lookup_delete_ne.
  - intros task lang_pool callback_url Hanswer.
    change (create_task task lang_pool callback_url)
      with (run_op (CreateTask task lang_pool callback_url)).
    rewrite (run_op_result _ _ _ Hanswer), (check_no_error _ Herr).
    unfold op_finish, py_getitem, mbind, result_bind. by rewrite lookup_delete_ne.
  - intros queue_id Hanswer.
    change (get_queue_stats queue_id) with (run_op (GetQueueStats queue_id)).
    by rewrite (run_op_result _ _ _ Hanswer), (check_no_error _ Herr).
  - intros task_id Hanswer Hstatus.
    change (get_task_result task_id) with (run_op (GetTaskResult task_id)).
    rewrite (run_op_result _ _ _ Hanswer), (check_no_error _ Herr).
    unfold op_finish, py_getitem, mbind, result_bind.
    by rewrite lookup_delete_ne, Hstatus.
  - intros task_id Hanswer Hstatus.
    change (report task_id) with (run_op (Report task_id)).
    rewrite (run_op_result _ _ _ Hanswer), (check_no_error _ Herr).
    unfold op_finish, py_getitem, mbind, result_bind.
    by rewrite lookup_delete_ne, Hstatus.
Qed.

Lemma payload_of_response_witness :
  (@get_balance (canned (VDict created_response)) client0).1
    = Raise (KeyError "balance") /\
  (@create_task (canned (VDict created_response)) (Task_init "ImageToTextTask")
     ENGLISH None client0).1 = Ok (VInt 7654321).
Proof.
  pose proof (@payload_of_response (canned (VDict created_response)) client0
                created_response eq_refl) as (Hb & Hc & _).
  exact (conj (Hb eq_refl) (Hc (Task_init "ImageToTextTask") ENGLISH None eq_refl)).
Defined.

(** X7. Whatever [__request] returns for a JSON object is that object
    without [errorId] and with every other field as received. *)
Theorem request_returns_stripped `{Runtime}
    (op : operation) (st : state) (d : gmap string value) (v : value) :
  answer st op = Ok (VDict d) ->
  (__request (op_method op) (op_body (this st) op) st).1 = Ok v ->
  v = VDict (delete "errorId" d) /\
  delete "errorId" d !! "errorId" = None /\
  (forall k : string, k <> "errorId" -> delete "errorId" d !! k = d !! k).
Proof.
  intros Hanswer. rewrite (request_result _ _ _ Hanswer). intros Hv.
  split; [|split; [apply lookup_delete_eq | intros k Hk; by apply lookup_delete_ne]].
  destruct (d !! "errorId") as [e|] eqn:He.
  - destruct (py_gt0 e) as [[]|exc] eqn:Hpos.
    + rewrite (check_positive _ _ He Hpos) in Hv.
      by destruct (d !! "errorCode"), (d !! "errorDescription").
    + rewrite (check_not_positive _ _ He Hpos) in Hv. by injection Hv as <-.
    + revert Hv. unfold check_response, py_contains, py_getitem, mbind, result_bind.
      rewrite He, bool_decide_eq_true_2 by eauto. by rewrite Hpos.
  - rewrite (check_absent _ He) in Hv. injection Hv as <-. by rewrite delete_id.
Qed.

Lemma request_returns_stripped_witness :
  VDict (<["taskId" := VInt 7654321]> ∅) = VDict (delete "errorId" created_response) /\
  delete "errorId" created_response !! "errorId" = None /\
  (forall k : string, k <> "errorId" ->
     delete "errorId" created_response !! k = created_response !! k).
Proof.
  exact (@request_returns_stripped (canned (VDict created_response))
           GetBalance client0 created_response
           (VDict (<["taskId" := VInt 7654321]> ∅)) eq_refl eq_refl).
Defined.

(** X8. [CaptchaException] is raised by an operation only for a JSON object
    with a positive [errorId], an [errorCode] and an [errorDescription], and
    its message is then made of these three. *)
Theorem captcha_exception_only_on_error `{Runtime}
    (op : operation) (st : state) (v : value) (msg : string) :
  answer st op = Ok v ->
  (run_op op st).1 = Raise (CaptchaException msg) ->
  exists (d : gmap string value) (e code description : value),
    v = VDict d /\
    d !! "errorId" = Some e /\
    py_gt0 e = Ok true /\
    d !! "errorCode" = Some code /\
    d !! "errorDescription" = Some description /\
    msg = format_error e code description.
Proof.
  intros Hanswer. rewrite (run_op_value _ _ _ Hanswer).
  destruct v as [| b | n | f | s | l | d].
  1-4: by destruct op.
  - unfold check_response, py_contains, mbind, result_bind.
    destruct (bool_decide _); [by destruct op|]. by destruct op.
  - unfold check_response, py_contains, mbind, result_bind.
    destruct (existsb _ l); [by destruct op|]. by destruct op.
  - destruct (d !! "errorId") as [e|] eqn:He.
    + destruct (py_gt0 e) as [[]|exc] eqn:Hpos.
      * rewrite (check_positive _ _ He Hpos).
        destruct (d !! "errorCode") as [code|] eqn:Hcode;
          [|by destruct op].
        destruct (d !! "errorDescription") as [description|] eqn:Hdescription;
          [|by destruct op].
        intros Hmsg. exists d, e, code, description.
        repeat split; try done.
        unfold mbind, result_bind in Hmsg. by injection Hmsg as <-.
      * rewrite (check_not_positive _ _ He Hpos).
        unfold mbind at 1, result_bind at 1.
        destruct op; simpl; unfold py_getitem, mbind, result_bind;
          repeat (match goal with
                  | |- context [delete "errorId" d !! ?k] =>
                      destruct (delete "errorId" d !! k)
                  end); done.
      * unfold check_response, py_contains, py_getitem, mbind, result_bind.
        rewrite He, bool_decide_eq_true_2 by eauto. rewrite Hpos.
        destruct e; try discriminate; by injection Hpos as <-.
    + rewrite (check_absent _ He). unfold mbind at 1, result_bind at 1.
      destruct op; simpl; unfold py_getitem, mbind, result_bind;
        repeat (match goal with
                | |- context [d !! ?k] => destruct (d !! k)
                end); done.
Qed.

Lemma captcha_exception_only_on_error_witness :
  exists (d : gmap string value) (e code description : value),
    VDict error_response = VDict d /\
    d !! "errorId" = Some e /\
    py_gt0 e = Ok true /\
    d !! "errorCode" = Some code /\
    d !! "errorDescription" = Some description /\
    "1 (ERROR_X): bad" = @format_error (canned (VDict error_response)) e code description.
Proof.
  exact (@captcha_exception_only_on_error (canned (VDict error_response))
           GetBalance client0 (VDict error_response) "1 (ERROR_X): bad"
           eq_refl eq_refl).
Defined.

(** X9. A response that is valid JSON and not an object makes [get_balance],
    [create_task], [get_task_result] and [report] raise [TypeError];
    [get_queue_stats] hands a list or a string back unchanged unless
    ['errorId'] occurs in it, and raises [TypeError] otherwise. *)
Theorem non_object_response `{Runtime} (op : operation) (st : state) (v : value) :
  answer st op = Ok v ->
  is_object v = false ->
  (run_op op st).1 =
    match op with
    | GetQueueStats _ =>
        match py_contains "errorId" v with
        | Ok false => Ok v
        | _ => Raise TypeError
        end
    | _ => Raise TypeError
    end.
Proof.
  intros Hanswer Hv. rewrite (run_op_value _ _ _ Hanswer).
  destruct v as [| b | n | f | s | l | d]; try discriminate.
  1-4: by destruct op.
  - unfold check_response, py_contains, mbind, result_bind.
    destruct (bool_decide _); by destruct op.
  - unfold check_response, py_contains, mbind, result_bind.
    destruct (existsb _ l); by destruct op.
Qed.

Lemma non_object_response_witness :
  (@run_op (canned (VList [VInt 1; VInt 2])) (GetQueueStats RECAPTCHA) client0).1
    = Ok (VList [VInt 1; VInt 2]) /\
  (@run_op (canned (VList [VInt 1; VInt 2])) GetBalance client0).1 = Raise TypeError.
Proof.
  exact (conj
    (@non_object_response (canned (VList [VInt 1; VInt 2])) (GetQueueStats RECAPTCHA)
       client0 (VList [VInt 1; VInt 2]) eq_refl eq_refl)
    (@non_object_response (canned (VList [VInt 1; VInt 2])) GetBalance
       client0 (VList [VInt 1; VInt 2]) eq_refl eq_refl)).
Defined.

(** ** Task payloads, further *)

(** X10. Building what was built changes nothing, and [build] returns
    [self.data] itself when no value in it is [None]. *)
Theorem build_idempotent (t : Task) :
  build {| data := build t |} = build t /\
  ((forall k : string, data t !! k <> Some VNone) -> build t = data t).
Proof.
  split.
  - apply map_eq. intros k. rewrite (build_lookup {| data := build t |}). simpl.
    rewrite build_lookup. by destruct (data t !! k) as [[]|].
  - intros Hnone. apply map_eq. intros k. rewrite build_lookup.
    specialize (Hnone k). by destruct (data t !! k) as [[]|].
Qed.

(** X11. [ImageToTextTask] is constructed exactly when the image can be
    fetched: the exception of the fetch is the exception of the constructor,
    and otherwise the task holds the base64 text of the fetched bytes under
    [body], whatever the optional arguments are. *)
Theorem ImageToTextTask_needs_image `{Runtime}
    image_url phrase case numeric math min_length max_length :
  match requests_get_content image_url with
  | Raise e =>
      ImageToTextTask_init image_url phrase case numeric math min_length max_length
        = Raise e
  | Ok content =>
      exists t : Task,
        ImageToTextTask_init image_url phrase case numeric math min_length max_length
          = Ok t /\
        build t !! "body" = Some (VStr (b64encode content)) /\
        base64_encode image_url = Ok (b64encode content)
  end.
Proof.
  destruct (requests_get_content image_url) as [content|e] eqn:Hget.
  - unfold ImageToTextTask_init, base64_encode. rewrite Hget. simpl.
    eexists. split; [done|]. split; [|done].
    apply build_keeps; [|done]. unfold dict_update.
    apply lookup_union_Some_l, lookup_insert_eq.
  - unfold ImageToTextTask_init, base64_encode. by rewrite Hget.
Qed.

Lemma b64encode_length (bs : list byte) :
  String.length (b64encode bs) = (4 * ((length bs + 2) / 3))%nat.
Proof.
  assert (Hall : forall (n : nat) (l : list byte), (length l <= n)%nat ->
            String.length (b64encode l) = (4 * ((length l + 2) / 3))%nat).
  { induction n as [|n IH]; intros l Hl.
    - destruct l; [reflexivity | simpl in Hl; lia].
    - destruct l as [|a [|b [|c rest]]]; try reflexivity.
      change (b64encode (a :: b :: c :: rest))
        with (let n := N.lor (N.lor (N.shiftl (Byte.to_N a) 16)
                                    (N.shiftl (Byte.to_N b) 8)) (Byte.to_N c) in
              String (b64_char (N.shiftr n 18)) (String (b64_char (N.shiftr n 12))
                (String (b64_char (N.shiftr n 6))
                   (String (b64_char n) (b64encode rest))))).
      cbn [String.length]. rewrite IH by (simpl in Hl; lia).
      cbn [length].
      replace (S (S (S (length rest))) + 2)%nat with (1 * 3 + (length rest + 2))%nat by lia.
      rewrite Nat.div_add_l by lia. lia. }
  by apply (Hall (length bs)).
Qed.

(** X12. The text [base64_encode] returns has four characters for every
    three bytes of the image, the last group padded. *)
Theorem base64_encode_length `{Runtime} (url : string) (s : string) :
  base64_encode url = Ok s ->
  exists content : list byte,
    requests_get_content url = Ok content /\
    String.length s = (4 * ((length content + 2) / 3))%nat.
Proof.
  unfold base64_encode.
  destruct (requests_get_content url) as [content|e]; [|done].
  intros [= <-]. exists content. split; [done|]. apply b64encode_length.
Qed.

Lemma base64_encode_length_witness :
  exists content : list byte,
    @requests_get_content (canned VNone) "http://host/captcha.png" = Ok content /\
    String.length "TWFu" = (4 * ((length content + 2) / 3))%nat.
Proof.
  exact (@base64_encode_length (canned VNone) "http://host/captcha.png" "TWFu" eq_refl).
Defined.

(** ** Enumerations *)

(** X13. Members of [Queue], [Numeric] and [LanguagePool] that differ have
    different wire values; [STANDARD_RUS] is the member [STANDARD_ENG] and
    is sent as [1]. *)
Theorem wire_values_distinct :
  (forall q1 q2 : Queue, Queue_value q1 = Queue_value q2 -> q1 = q2) /\
  (forall n1 n2 : Numeric, Numeric_value n1 = Numeric_value n2 -> n1 = n2) /\
  (forall l1 l2 : LanguagePool,
     LanguagePool_value l1 = LanguagePool_value l2 -> l1 = l2) /\
  Queue_value STANDARD_RUS = 1.
Proof.
  repeat split.
  - by intros [] [].
  - by intros [] [].
  - by intros [] [].
Qed.

(** ** Calls in sequence *)

Lemma run_each_log `{Runtime} (ops : list operation) (st : state) :
  posted (run_each ops st).2
    = (posted st ++ map (request_of (this st)) ops)%list /\
  this (run_each ops st).2 = this st /\
  length (run_each ops st).1 = length ops.
Proof.
  revert st. induction ops as [|op ops IH]; intros st.
  - simpl. by rewrite app_nil_r.
  - cbn [run_each]. rewrite run_op_run.
    destruct (run_each ops (after_post st op)) as [rs st''] eqn:Hrest.
    destruct (IH (after_post st op)) as (Hposted & Hthis & Hlen).
    rewrite Hrest in Hposted, Hthis, Hlen. simpl in *.
    rewrite Hposted, Hthis, Hlen. split; [|done].
    by rewrite <- app_assoc.
Qed.

(** X14. Whatever the service answers, a caller that makes any number of
    calls on one client leaves it with the same [client_key] and [soft_id],
    has one outcome per call, and has posted one request per call, in the
    order of the calls; each request is the one the call would post on the
    fresh client, so that no request depends on an earlier answer. *)
Theorem calls_in_sequence `{Runtime} (ops : list operation) (st : state) :
  posted (run_each ops st).2
    = (posted st ++ map (request_of (this st)) ops)%list /\
  this (run_each ops st).2 = this st /\
  length (run_each ops st).1 = length ops /\
  (forall (i : nat) (op : operation),
     ops !! i = Some op ->
     posted (run_each ops st).2 !! (length (posted st) + i)%nat
       = last (posted (run_op op st).2)).
Proof.
  destruct (run_each_log ops st) as (Hposted & Hthis & Hlen).
  repeat split; try done.
  intros i op Hop. rewrite Hposted, run_op_run. unfold after_post; simpl.
  rewrite last_snoc, lookup_app_r by lia.
  replace (length (posted st) + i - length (posted st))%nat with i by lia.
  by rewrite list_lookup_fmap, Hop.
Qed.

(** X15. The request of [create_task] has no [null] in it, neither among
    its own fields nor among the fields of the task it carries. *)
Theorem create_task_sends_no_null `{Runtime}
    (task : Task) (lang_pool : LanguagePool) (callback_url : option string)
    (st : state) :
  exists body payload : gmap string value,
    last (posted (create_task task lang_pool callback_url st).2)
      = Some ("https://api.anti-captcha.com/createTask", VDict body) /\
    body !! "task" = Some (VDict payload) /\
    (forall (k : string) (v : value), body !! k = Some v -> is_None_value v = false) /\
    (forall (k : string) (v : value), payload !! k = Some v -> is_None_value v = false).
Proof.
  exists (create_task_request (this st) task lang_pool callback_url), (build task).
  destruct (create_task_request_lookup (this st) task lang_pool callback_url)
    as (Hkey & Hpool & Htask & Hurl & Hsoft & Hother).
  split; [|split; [done|split]].
  - change (create_task task lang_pool callback_url)
      with (run_op (CreateTask task lang_pool callback_url)).
    rewrite run_op_run. unfold after_post; simpl. by rewrite last_snoc.
  - intros k v Hk.
    destruct (decide (k ∈ ["clientKey"; "languagePool"; "task"; "callbackUrl"; "softId"]))
      as [Hin|Hout].
    + rewrite !elem_of_cons in Hin.
      destruct Hin as [-> | [-> | [-> | [-> | [-> | Hnil]]]]].
      * rewrite Hkey in Hk. by injection Hk as <-.
      * rewrite Hpool in Hk. by injection Hk as <-.
      * rewrite Htask in Hk. by injection Hk as <-.
      * rewrite Hurl in Hk. destruct callback_url; [|done]. by injection Hk as <-.
      * rewrite Hsoft in Hk. destruct (soft_id (this st)); [|done]. by injection Hk as <-.
      * by apply elem_of_nil in Hnil.
    + by rewrite (Hother k Hout) in Hk.
  - intros k v Hk. by apply build_lookup_Some in Hk as [_ Hv].
Qed.

(** An image that cannot be fetched: no task. *)
Example ImageToTextTask_unreachable :
  @ImageToTextTask_init unreachable "http://host/captcha.png"
    (Some true) None None None None None
  = Raise (RequestException "http://host/captcha.png").
Proof. reflexivity. Qed.

(** A poll, a report and a balance query on one client. *)
Example three_calls :
  map fst (posted (@run_each (canned (VDict processing_response))
                     [GetTaskResult 5; Report 5; GetBalance] client1).2)
  = ["https://api.anti-captcha.com/getTaskResult";
     "https://api.anti-captcha.com/reportIncorrectImageCaptcha";
     "https://api.anti-captcha.com/getBalance"] /\
  (@run_each (canned (VDict processing_response))
     [GetTaskResult 5; Report 5; GetBalance] client1).1
  = [Ok (VDict {[ "status" := VBool false ]}); Ok (VBool false);
     Raise (KeyError "balance")].
Proof. split; vm_compute; reflexivity. Qed.
